(** * service_b/web_app/views.py: the [home_view] handler

    A shallow embedding of the Django view of service B, which fetches
    JSON from service A with [requests] and renders it, together with
    the part of [requests], [logging] and [django.shortcuts] the view
    calls.  Effects (log records, outbound HTTP calls, raised
    exceptions) are threaded through a state-and-exception monad. *)

From stdpp Require Import base decidable option list strings gmap pretty.
From Stdlib Require Import ZArith Lia.

Set Warnings "-register-all".

Local Open Scope Z_scope.
Local Open Scope string_scope.

(** ** Python values *)

Module Py.

(** What [json.loads] can return, and so what [data] can hold.  A
    [dict] keeps the order of its keys, as Python's does; a [float]
    is carried as its binary64 bit pattern. *)
Inductive value : Type :=
| VNone
| VBool (b : bool)
| VInt (n : Z)
| VFloat (bits : Z)
| VStr (s : string)
| VList (items : list value)
| VDict (entries : list (string * value)).

(** Exception classes the view can meet: the builtins involved, the
    hierarchy of [requests/exceptions.py], [json.JSONDecodeError], and
    the location errors of [urllib3/exceptions.py]. *)
Inductive exn_class : Type :=
| BaseException | Exception | OSError | ValueError | TypeError
| RuntimeError | RecursionError
| json_JSONDecodeError
| urllib3_HTTPError | urllib3_LocationValueError | urllib3_LocationParseError
| RequestException
| InvalidJSONError | JSONDecodeError
| HTTPError
| ConnectionError | ProxyError | SSLError
| Timeout | ConnectTimeout | ReadTimeout
| URLRequired | TooManyRedirects
| MissingSchema | InvalidSchema | InvalidURL | InvalidHeader
| InvalidProxyURL
| ChunkedEncodingError | ContentDecodingError | StreamConsumedError
| RetryError | UnrewindableBodyError.

#[global] Instance exn_class_eq_dec : EqDecision exn_class.
Proof. solve_decision. Defined.

(** The direct base classes, one line per [class C(B1, B2):]
    declaration ([IOError] is [OSError]). *)
Definition bases (c : exn_class) : list exn_class :=
  match c with
  | BaseException => []
  | Exception => [BaseException]
  | OSError => [Exception]
  | ValueError => [Exception]
  | TypeError => [Exception]
  | RuntimeError => [Exception]
  | RecursionError => [RuntimeError]
  | json_JSONDecodeError => [ValueError]
  | urllib3_HTTPError => [Exception]
  | urllib3_LocationValueError => [ValueError; urllib3_HTTPError]
  | urllib3_LocationParseError => [urllib3_LocationValueError]
  | RequestException => [OSError]
  | InvalidJSONError => [RequestException]
  | JSONDecodeError => [InvalidJSONError; json_JSONDecodeError]
  | HTTPError => [RequestException]
  | ConnectionError => [RequestException]
  | ProxyError => [ConnectionError]
  | SSLError => [ConnectionError]
  | Timeout => [RequestException]
  | ConnectTimeout => [ConnectionError; Timeout]
  | ReadTimeout => [Timeout]
  | URLRequired => [RequestException]
  | TooManyRedirects => [RequestException]
  | MissingSchema => [RequestException; ValueError]
  | InvalidSchema => [RequestException; ValueError]
  | InvalidURL => [RequestException; ValueError]
  | InvalidHeader => [RequestException; ValueError]
  | InvalidProxyURL => [InvalidURL]
  | ChunkedEncodingError => [RequestException]
  | ContentDecodingError => [RequestException; urllib3_HTTPError]
  | StreamConsumedError => [RequestException; TypeError]
  | RetryError => [RequestException]
  | UnrewindableBodyError => [RequestException]
  end.

(** [issubclass c target], by walking the bases; the hierarchy is
    six levels deep, [depth] bounds the walk. *)
Fixpoint issubclass_upto (depth : nat) (c target : exn_class) : bool :=
  bool_decide (c = target) ||
  match depth with
  | O => false
  | S d => existsb (fun b => issubclass_upto d b target) (bases c)
  end.

Definition issubclass : exn_class -> exn_class -> bool := issubclass_upto 8.

(** A raised exception: its class and what [str(e)] gives. *)
Record exn : Type := Exn { exn_type : exn_class; exn_str : string }.

Definition isinstance (e : exn) (c : exn_class) : bool :=
  issubclass (exn_type e) c.

(** What evaluating a statement or expression ends in. *)
Inductive outcome (A : Type) : Type :=
| Return (a : A)
| Raise (e : exn).
#[global] Arguments Return {A} a.
#[global] Arguments Raise {A} e.

(** [os.environ.get(key, default)] *)
Definition environ_get (environ : gmap string string) (key default : string) : string :=
  match environ !! key with
  | Some v => v
  | None => default
  end.

End Py.

(** ** The process: what the view can change outside itself *)

Module Logging.
Inductive level : Type := DEBUG | INFO | WARNING | ERROR | CRITICAL.
Record LogRecord : Type := { levelname : level; msg : string }.
End Logging.

(** One outbound HTTP call, as handed to [requests]. *)
Record Call : Type := { call_method : string; call_url : string; call_timeout : Z }.

Record process : Type := {
  log_records : list Logging.LogRecord;
  outbound : list Call
}.

(** Computations over the process that return or raise. *)
Definition M (A : Type) : Type := process -> Py.outcome A * process.

#[global] Instance M_ret : MRet M := fun A a s => (Py.Return a, s).
#[global] Instance M_bind : MBind M := fun A B f m s =>
  match m s with
  | (Py.Return a, s') => f a s'
  | (Py.Raise e, s') => (Py.Raise e, s')
  end.

Definition raise {A : Type} (e : Py.exn) : M A := fun s => (Py.Raise e, s).

(** [try: body except cls as e: handler e]: an exception of another
    class passes through. *)
Definition try_except {A : Type} (body : M A) (cls : Py.exn_class)
    (handler : Py.exn -> M A) : M A :=
  fun s =>
    match body s with
    | (Py.Return a, s') => (Py.Return a, s')
    | (Py.Raise e, s') =>
        if Py.isinstance e cls then handler e s' else (Py.Raise e, s')
    end.

(** [logger.error(msg)] *)
Definition logger_error (msg : string) : M unit := fun s =>
  (Py.Return tt,
   {| log_records := log_records s ++ [ {| Logging.levelname := Logging.ERROR; Logging.msg := msg |} ];
      outbound := outbound s |}).

(** ** requests *)

Module Requests.

(** The fields of [requests.Response] the view depends on. *)
Record Response : Type := {
  status_code : Z;
  reason : string;
  url : string;
  text : string
}.

(** How [requests.get] can fail without a response; each is raised
    as the class of the same name. *)
Inductive fault_kind : Type :=
| FConnectionError | FProxyError | FSSLError
| FTimeout | FConnectTimeout | FReadTimeout
| FTooManyRedirects
| FMissingSchema | FInvalidSchema | FInvalidURL | FInvalidHeader
| FInvalidProxyURL
| FChunkedEncodingError | FContentDecodingError | FRetryError.

Definition class_of_fault (k : fault_kind) : Py.exn_class :=
  match k with
  | FConnectionError => Py.ConnectionError
  | FProxyError => Py.ProxyError
  | FSSLError => Py.SSLError
  | FTimeout => Py.Timeout
  | FConnectTimeout => Py.ConnectTimeout
  | FReadTimeout => Py.ReadTimeout
  | FTooManyRedirects => Py.TooManyRedirects
  | FMissingSchema => Py.MissingSchema
  | FInvalidSchema => Py.InvalidSchema
  | FInvalidURL => Py.InvalidURL
  | FInvalidHeader => Py.InvalidHeader
  | FInvalidProxyURL => Py.InvalidProxyURL
  | FChunkedEncodingError => Py.ChunkedEncodingError
  | FContentDecodingError => Py.ContentDecodingError
  | FRetryError => Py.RetryError
  end.

(** What [requests.get] raises that is none of its own exceptions:
    the adapter re-raises a urllib3 [HTTPError] it has no name for,
    which is how [LocationParseError] (a host label that is empty or
    too long) comes out. *)
Inductive stray_kind : Type :=
| SLocationParseError.

Definition class_of_stray (k : stray_kind) : Py.exn_class :=
  match k with
  | SLocationParseError => Py.urllib3_LocationParseError
  end.

(** What one exchange with the upstream ends in. *)
Inductive exchange : Type :=
| Failed (kind : fault_kind) (description : string)
| Responded (r : Response)
| Escaped (kind : stray_kind) (description : string).

(** How the JSON decoder can fail other than with
    [json.JSONDecodeError]: [ValueError] for an integer of more digits
    than [int] converts, [RecursionError] for nesting deeper than the
    interpreter's stack. *)
Inductive abort_kind : Type :=
| AValueError | ARecursionError.

Definition class_of_abort (k : abort_kind) : Py.exn_class :=
  match k with
  | AValueError => Py.ValueError
  | ARecursionError => Py.RecursionError
  end.

(** What the JSON decoder makes of a body: a value, a
    [json.JSONDecodeError], or one of the other failures. *)
Inductive decoded : Type :=
| Decoded (v : Py.value)
| Undecodable (description : string)
| Aborted (kind : abort_kind) (description : string).

(** [Response.json] catches the decoder's [json.JSONDecodeError] and
    raises [requests.exceptions.JSONDecodeError] in its place from
    release 2.27 on; before, it has no handler and the decoder's
    exception comes out as it is. *)
Inductive release : Type := Before_2_27 | Since_2_27.

Definition decode_fault (rel : release) : Py.exn_class :=
  match rel with
  | Before_2_27 => Py.json_JSONDecodeError
  | Since_2_27 => Py.JSONDecodeError
  end.

Section Library.
(** The upstream, seen from the client: what a GET of a URL with a
    timeout (in seconds) ends in. *)
Variable upstream : string -> Z -> exchange.
(** [json.loads] *)
Variable loads : string -> decoded.
(** The release of [requests] that is installed. *)
Variable rel : release.

(** [requests.get(url, timeout=timeout)]: one exchange. *)
Definition get (url : string) (timeout : Z) : M Response := fun s =>
  let s' := {| log_records := log_records s;
               outbound := outbound s ++
                 [ {| call_method := "GET"; call_url := url; call_timeout := timeout |} ] |} in
  match upstream url timeout with
  | Failed k d => (Py.Raise (Py.Exn (class_of_fault k) d), s')
  | Responded r => (Py.Return r, s')
  | Escaped k d => (Py.Raise (Py.Exn (class_of_stray k) d), s')
  end.

(** [Response.raise_for_status] *)
Definition raise_for_status (self : Response) : M unit :=
  let http_error_msg :=
    if bool_decide (400 <= status_code self < 500) then
      pretty (status_code self) +:+ " Client Error: " +:+ reason self
        +:+ " for url: " +:+ url self
    else if bool_decide (500 <= status_code self < 600) then
      pretty (status_code self) +:+ " Server Error: " +:+ reason self
        +:+ " for url: " +:+ url self
    else EmptyString in
  if bool_decide (http_error_msg = EmptyString) then mret tt
  else raise (Py.Exn Py.HTTPError http_error_msg).

(** [Response.json]: only the decoder's [json.JSONDecodeError] is
    caught and raised again ([except JSONDecodeError as e: raise
    RequestsJSONDecodeError(e.msg, e.doc, e.pos)]), and only from
    release 2.27 on; any other exception of the decoder passes. *)
Definition json (self : Response) : M Py.value :=
  match loads (text self) with
  | Decoded v => mret v
  | Undecodable d => raise (Py.Exn (decode_fault rel) d)
  | Aborted k d => raise (Py.Exn (class_of_abort k) d)
  end.
End Library.

End Requests.

(** ** django.shortcuts *)

Module Django.
Record HttpRequest : Type := { method : string; path : string }.

(** The response of [render], kept as what it was rendered from. *)
Record HttpResponse : Type := {
  status : Z;
  template_name : string;
  context : gmap string Py.value
}.

Definition render (request : HttpRequest) (template : string)
    (ctx : gmap string Py.value) : M HttpResponse :=
  mret {| status := 200; template_name := template; context := ctx |}.
End Django.

(** ** web_app/views.py *)

Module Views.
Section View.
Variable environ : gmap string string.
Variable upstream : string -> Z -> Requests.exchange.
Variable loads : string -> Requests.decoded.
Variable rel : Requests.release.

Definition service_a_host : string :=
  Py.environ_get environ "SERVICE_A_HOST" "service-a".

Definition service_a_url : string :=
  "http://" +:+ service_a_host +:+ ":8000/api/data/".

Definition fallback : Py.value := Py.VDict [("items", Py.VList [])].

Definition home_view (request : Django.HttpRequest) : M Django.HttpResponse :=
  data ← try_except
           (response ← Requests.get upstream service_a_url 5;
            Requests.raise_for_status response;;
            Requests.json loads rel response)
           Py.RequestException
           (fun e =>
              logger_error ("Error connecting to Service A: " +:+ Py.exn_str e);;
              mret fallback);
  Django.render request "home.html" {[ "data" := data ]}.
End View.
End Views.

(** ** Vocabulary of the statements *)

Module Http.
(** A success status, 200 to 299. *)
Definition is_success (status : Z) : Prop := 200 <= status < 300.
(** An error status: a client error (4xx) or a server error (5xx). *)
Definition is_error (status : Z) : Prop := 400 <= status < 600.

(** A fetch that failed: no response and an exception of [requests]
    (connection error, timeout, ...), or a response with an error
    status. *)
Definition fetch_failed (x : Requests.exchange) : Prop :=
  match x with
  | Requests.Failed _ _ => True
  | Requests.Responded r => is_error (Requests.status_code r)
  | Requests.Escaped _ _ => False
  end.

(** A fetch that succeeded and whose body parsed. *)
Definition fetched_and_parsed (loads : string -> Requests.decoded)
    (x : Requests.exchange) : Prop :=
  match x with
  | Requests.Failed _ _ => False
  | Requests.Responded r =>
      ~ is_error (Requests.status_code r) /\
      exists v, loads (Requests.text r) = Requests.Decoded v
  | Requests.Escaped _ _ => False
  end.
End Http.

(** Two exchanges an upstream in the same state gives: the same
    failure, or responses with the same status and body. *)
Definition same_exchange (x y : Requests.exchange) : Prop :=
  match x, y with
  | Requests.Failed k d, Requests.Failed k' d' => k = k' /\ d = d'
  | Requests.Responded r, Requests.Responded r' =>
      Requests.status_code r = Requests.status_code r' /\
      Requests.text r = Requests.text r'
  | Requests.Escaped k d, Requests.Escaped k' d' => k = k' /\ d = d'
  | _, _ => False
  end.

(** The payload the data model expects: a mapping with a key [items]
    that holds a sequence. *)
Definition is_items_payload (v : Py.value) : bool :=
  match v with
  | Py.VDict entries =>
      match List.find (fun kv => bool_decide (kv.1 = "items")) entries with
      | Some (_, Py.VList _) => true
      | _ => false
      end
  | _ => false
  end.

(** The page [render] gives for a payload. *)
Definition page (data : Py.value) : Django.HttpResponse :=
  {| Django.status := 200;
     Django.template_name := "home.html";
     Django.context := {[ "data" := data ]} |}.

(** The text of the [HTTPError] that [raise_for_status] raises. *)
Definition http_error_text (r : Requests.Response) : string :=
  pretty (Requests.status_code r) +:+
    (if bool_decide (Requests.status_code r < 500) then " Client Error: " else " Server Error: ")
    +:+ Requests.reason r +:+ " for url: " +:+ Requests.url r.

Definition error_record (msg : string) : Logging.LogRecord :=
  {| Logging.levelname := Logging.ERROR; Logging.msg := msg |}.

Definition get_call (url : string) : Call :=
  {| call_method := "GET"; call_url := url; call_timeout := 5 |}.

(** The process after the GET, and after the error record. *)
Definition sent (url : string) (s : process) : process :=
  {| log_records := log_records s; outbound := outbound s ++ [get_call url] |}.

Definition logged (msg : string) (s : process) : process :=
  {| log_records := log_records s ++ [error_record msg]; outbound := outbound s |}.

Definition complaint (description : string) : string :=
  "Error connecting to Service A: " +:+ description.

(** How one invocation from [s] can end: the seven paths through
    the [try] statement, by what the upstream and the decoder do. *)
Inductive run_of (environ : gmap string string)
    (upstream : string -> Z -> Requests.exchange)
    (loads : string -> Requests.decoded) (rel : Requests.release) (s : process)
    : Py.outcome Django.HttpResponse * process -> Prop :=
| run_of_failed k d :
    upstream (Views.service_a_url environ) 5 = Requests.Failed k d ->
    run_of environ upstream loads rel s
      (Py.Return (page Views.fallback),
       logged (complaint d) (sent (Views.service_a_url environ) s))
| run_of_escaped k d :
    upstream (Views.service_a_url environ) 5 = Requests.Escaped k d ->
    run_of environ upstream loads rel s
      (Py.Raise (Py.Exn (Requests.class_of_stray k) d),
       sent (Views.service_a_url environ) s)
| run_of_error_status r :
    upstream (Views.service_a_url environ) 5 = Requests.Responded r ->
    Http.is_error (Requests.status_code r) ->
    run_of environ upstream loads rel s
      (Py.Return (page Views.fallback),
       logged (complaint (http_error_text r)) (sent (Views.service_a_url environ) s))
| run_of_decoded r v :
    upstream (Views.service_a_url environ) 5 = Requests.Responded r ->
    ~ Http.is_error (Requests.status_code r) ->
    loads (Requests.text r) = Requests.Decoded v ->
    run_of environ upstream loads rel s
      (Py.Return (page v), sent (Views.service_a_url environ) s)
| run_of_undecodable_caught r d :
    upstream (Views.service_a_url environ) 5 = Requests.Responded r ->
    ~ Http.is_error (Requests.status_code r) ->
    loads (Requests.text r) = Requests.Undecodable d ->
    rel = Requests.Since_2_27 ->
    run_of environ upstream loads rel s
      (Py.Return (page Views.fallback),
       logged (complaint d) (sent (Views.service_a_url environ) s))
| run_of_undecodable_raised r d :
    upstream (Views.service_a_url environ) 5 = Requests.Responded r ->
    ~ Http.is_error (Requests.status_code r) ->
    loads (Requests.text r) = Requests.Undecodable d ->
    rel = Requests.Before_2_27 ->
    run_of environ upstream loads rel s
      (Py.Raise (Py.Exn Py.json_JSONDecodeError d),
       sent (Views.service_a_url environ) s)
| run_of_aborted r k d :
    upstream (Views.service_a_url environ) 5 = Requests.Responded r ->
    ~ Http.is_error (Requests.status_code r) ->
    loads (Requests.text r) = Requests.Aborted k d ->
    run_of environ upstream loads rel s
      (Py.Raise (Py.Exn (Requests.class_of_abort k) d),
       sent (Views.service_a_url environ) s).

(** A run that ended in the rendered page of [home.html], status 200. *)
Definition rendered (run : Py.outcome Django.HttpResponse * process) : Prop :=
  exists response s',
    run = (Py.Return response, s') /\
    Django.status response = 200 /\
    Django.template_name response = "home.html".

(** One arrival at the route: the inbound request and what the
    upstream is at that moment. *)
Definition arrival : Type := Django.HttpRequest * (string -> Z -> Requests.exchange).

(** The view called for one arrival after another in one process, as
    the framework calls it for its route; an exception ends the run. *)
Fixpoint serve (view : (string -> Z -> Requests.exchange) ->
                       Django.HttpRequest -> M Django.HttpResponse)
    (arrivals : list arrival) : M (list Django.HttpResponse) :=
  match arrivals with
  | [] => mret []
  | (request, upstream) :: rest =>
      response ← view upstream request;
      responses ← serve view rest;
      mret (response :: responses)
  end.

(** ** Concrete environments, upstreams and bodies *)

Module Sample.
Definition quoted (s : string) : string :=
  String (Ascii.ascii_of_nat 34) (s +:+ String (Ascii.ascii_of_nat 34) EmptyString).

(** The body [{"items": ["a","b"]}]. *)
Definition body_items_ab : string :=
  "{" +:+ quoted "items" +:+ ": [" +:+ quoted "a" +:+ "," +:+ quoted "b" +:+ "]}".
Definition body_array : string := "[1, 2]".
Definition body_html : string := "<html>502 Bad Gateway</html>".

Fixpoint ones (n : nat) : string :=
  match n with
  | O => EmptyString
  | S m => String (Ascii.ascii_of_nat 49) (ones m)
  end.
(** 4400 digits and a closing brace: not JSON, and more digits than
    [int] converts. *)
Definition body_digits : string := ones 4400 +:+ "}".

Definition items_ab : Py.value :=
  Py.VDict [("items", Py.VList [Py.VStr "a"; Py.VStr "b"])].

(** [json.loads] on the bodies of this module: two are JSON, one
    makes the decoder raise [ValueError], the others fail at their
    first character. *)
Definition loads (body : string) : Requests.decoded :=
  if bool_decide (body = body_items_ab) then Requests.Decoded items_ab
  else if bool_decide (body = body_array) then
    Requests.Decoded (Py.VList [Py.VInt 1; Py.VInt 2])
  else if bool_decide (body = body_digits) then
    Requests.Aborted Requests.AValueError
      "Exceeds the limit (4300 digits) for integer string conversion: value has 4400 digits; use sys.set_int_max_str_digits() to increase the limit"
  else Requests.Undecodable "Expecting value: line 1 column 1 (char 0)".

Definition unset : gmap string string := ∅.
Definition alt_host : gmap string string := {[ "SERVICE_A_HOST" := "alt-host" ]}.
Definition empty_host : gmap string string := {[ "SERVICE_A_HOST" := EmptyString ]}.

Definition respond (status : Z) (reason body : string) (url : string) (timeout : Z)
    : Requests.exchange :=
  Requests.Responded
    {| Requests.status_code := status; Requests.reason := reason;
       Requests.url := url; Requests.text := body |}.

Definition ok_items : string -> Z -> Requests.exchange := respond 200 "OK" body_items_ab.
Definition ok_array : string -> Z -> Requests.exchange := respond 200 "OK" body_array.
Definition ok_html : string -> Z -> Requests.exchange := respond 200 "OK" body_html.
Definition ok_digits : string -> Z -> Requests.exchange := respond 200 "OK" body_digits.
Definition not_found : string -> Z -> Requests.exchange :=
  respond 404 "Not Found" "<h1>Not Found</h1>".
Definition server_error : string -> Z -> Requests.exchange :=
  respond 500 "Internal Server Error" EmptyString.
(** 300 without a [Location] header is not followed by [requests]. *)
Definition multiple_choices : string -> Z -> Requests.exchange :=
  respond 300 "Multiple Choices" body_items_ab.
Definition timed_out (url : string) (timeout : Z) : Requests.exchange :=
  Requests.Failed Requests.FReadTimeout
    "HTTPConnectionPool(host='service-a', port=8000): Read timed out. (read timeout=5)".
Definition refused (url : string) (timeout : Z) : Requests.exchange :=
  Requests.Failed Requests.FConnectionError "Connection refused".

(** The same host setting as [unset], next to an unrelated variable. *)
Definition unset_with_path : gmap string string := {[ "PATH" := "/usr/bin" ]}.
(** The same answer as [ok_items], from a differently worded upstream. *)
Definition ok_items_terse : string -> Z -> Requests.exchange :=
  respond 200 EmptyString body_items_ab.

Definition request : Django.HttpRequest := {| Django.method := "GET"; Django.path := "/" |}.
Definition idle : process := {| log_records := []; outbound := [] |}.
End Sample.

(** ** The class hierarchy and the monad *)

Example json_error_is_request_exception :
  Py.issubclass Py.JSONDecodeError Py.RequestException = true.
Proof. reflexivity. Qed.

Example value_error_is_not_request_exception :
  Py.issubclass Py.json_JSONDecodeError Py.RequestException = false.
Proof. reflexivity. Qed.

Lemma fault_is_request_exception (k : Requests.fault_kind) :
  Py.issubclass (Requests.class_of_fault k) Py.RequestException = true.
Proof. destruct k; reflexivity. Qed.

Lemma stray_is_no_request_exception (k : Requests.stray_kind) :
  Py.issubclass (Requests.class_of_stray k) Py.RequestException = false.
Proof. destruct k; reflexivity. Qed.

Lemma abort_is_no_request_exception (k : Requests.abort_kind) :
  Py.issubclass (Requests.class_of_abort k) Py.RequestException = false.
Proof. destruct k; reflexivity. Qed.

(** A handler is skipped for an exception outside the named class. *)
Lemma try_except_passes {A : Type} (e : Py.exn) (cls : Py.exn_class)
    (handler : Py.exn -> M A) (s : process) :
  Py.isinstance e cls = false ->
  try_except (raise e) cls handler s = (Py.Raise e, s).
Proof. intros H. unfold try_except, raise. now rewrite H. Qed.

Lemma one_more_differs {A : Type} (l : list A) (x : A) : (l ++ [x])%list <> l.
Proof.
  intros H. apply (f_equal length) in H.
  rewrite length_app in H. simpl in H. lia.
Qed.

Lemma append_empty_inv (a b : string) : a +:+ b = EmptyString -> b = EmptyString.
Proof. destruct a as [|c a]; simpl; [tauto | discriminate]. Qed.

Lemma http_error_text_nonempty (r : Requests.Response) :
  http_error_text r <> EmptyString.
Proof.
  unfold http_error_text. intros H.
  apply append_empty_inv in H.
  destruct (bool_decide (Requests.status_code r < 500)); discriminate H.
Qed.

Lemma release_cases (rel : Requests.release) :
  rel = Requests.Before_2_27 \/ rel = Requests.Since_2_27.
Proof. destruct rel; [now left | now right]. Qed.

(** ** How [home_view] runs *)

Section Runs.
Variable environ : gmap string string.
Variable upstream : string -> Z -> Requests.exchange.
Variable loads : string -> Requests.decoded.
Variable rel : Requests.release.
Variable request : Django.HttpRequest.

Abbreviation target := (Views.service_a_url environ).
Abbreviation view := (Views.home_view environ upstream loads rel request).

Lemma raise_for_status_error (r : Requests.Response) (s : process) :
  Http.is_error (Requests.status_code r) ->
  Requests.raise_for_status r s = (Py.Raise (Py.Exn Py.HTTPError (http_error_text r)), s).
Proof.
  unfold Http.is_error, Requests.raise_for_status, http_error_text. intros H.
  destruct (decide (Requests.status_code r < 500)) as [Hlt | Hge].
  - rewrite (bool_decide_eq_true_2 (400 <= _ < 500)) by lia.
    rewrite (bool_decide_eq_true_2 (_ < 500)) by lia.
    rewrite bool_decide_eq_false_2; [reflexivity |].
    intros E. apply append_empty_inv in E. discriminate E.
  - rewrite (bool_decide_eq_false_2 (400 <= _ < 500)) by lia.
    rewrite (bool_decide_eq_true_2 (500 <= _ < 600)) by lia.
    rewrite (bool_decide_eq_false_2 (_ < 500)) by lia.
    rewrite bool_decide_eq_false_2; [reflexivity |].
    intros E. apply append_empty_inv in E. discriminate E.
Qed.

Lemma raise_for_status_pass (r : Requests.Response) (s : process) :
  ~ Http.is_error (Requests.status_code r) ->
  Requests.raise_for_status r s = (Py.Return tt, s).
Proof.
  unfold Http.is_error, Requests.raise_for_status. intros H.
  rewrite (bool_decide_eq_false_2 (400 <= _ < 500)) by lia.
  rewrite (bool_decide_eq_false_2 (500 <= _ < 600)) by lia.
  reflexivity.
Qed.

(** No response and an exception of [requests]: the fault is logged
    and the fallback rendered. *)
Lemma run_failed (k : Requests.fault_kind) (d : string) (s : process) :
  upstream target 5 = Requests.Failed k d ->
  view s = (Py.Return (page Views.fallback), logged (complaint d) (sent target s)).
Proof.
  intros H.
  unfold Views.home_view, mbind, M_bind, try_except, Requests.get.
  rewrite H. unfold Py.isinstance. simpl Py.exn_type.
  rewrite fault_is_request_exception. reflexivity.
Qed.

(** No response and an exception that is none of [requests]: it
    leaves the view as it came, and nothing is logged. *)
Lemma run_escaped (k : Requests.stray_kind) (d : string) (s : process) :
  upstream target 5 = Requests.Escaped k d ->
  view s = (Py.Raise (Py.Exn (Requests.class_of_stray k) d), sent target s).
Proof.
  intros H.
  unfold Views.home_view, mbind, M_bind, try_except, Requests.get.
  rewrite H. unfold Py.isinstance. simpl Py.exn_type.
  rewrite stray_is_no_request_exception. reflexivity.
Qed.

(** An error status: the [HTTPError] is logged and the fallback rendered. *)
Lemma run_error_status (r : Requests.Response) (s : process) :
  upstream target 5 = Requests.Responded r ->
  Http.is_error (Requests.status_code r) ->
  view s = (Py.Return (page Views.fallback),
            logged (complaint (http_error_text r)) (sent target s)).
Proof.
  intros H E.
  unfold Views.home_view, mbind, M_bind, try_except, Requests.get.
  rewrite H. rewrite raise_for_status_error by exact E. reflexivity.
Qed.

(** Any other status and a body that decodes: the value is rendered. *)
Lemma run_decoded (r : Requests.Response) (v : Py.value) (s : process) :
  upstream target 5 = Requests.Responded r ->
  ~ Http.is_error (Requests.status_code r) ->
  loads (Requests.text r) = Requests.Decoded v ->
  view s = (Py.Return (page v), sent target s).
Proof.
  intros H E L.
  unfold Views.home_view, mbind, M_bind, try_except, Requests.get.
  rewrite H. rewrite raise_for_status_pass by exact E.
  unfold Requests.json. rewrite L. reflexivity.
Qed.

(** Any other status and a body the decoder rejects with
    [json.JSONDecodeError]: from release 2.27 on what comes out of
    [Response.json] is a [RequestException], so it is logged and the
    fallback rendered. *)
Lemma run_undecodable_caught (r : Requests.Response) (d : string) (s : process) :
  upstream target 5 = Requests.Responded r ->
  ~ Http.is_error (Requests.status_code r) ->
  loads (Requests.text r) = Requests.Undecodable d ->
  rel = Requests.Since_2_27 ->
  view s = (Py.Return (page Views.fallback), logged (complaint d) (sent target s)).
Proof.
  intros H E L ->.
  unfold Views.home_view, mbind, M_bind, try_except, Requests.get.
  rewrite H. rewrite raise_for_status_pass by exact E.
  unfold Requests.json. rewrite L. reflexivity.
Qed.

(** The same before release 2.27: the decoder's exception is a
    [ValueError] and leaves the view. *)
Lemma run_undecodable_raised (r : Requests.Response) (d : string) (s : process) :
  upstream target 5 = Requests.Responded r ->
  ~ Http.is_error (Requests.status_code r) ->
  loads (Requests.text r) = Requests.Undecodable d ->
  rel = Requests.Before_2_27 ->
  view s = (Py.Raise (Py.Exn Py.json_JSONDecodeError d), sent target s).
Proof.
  intros H E L ->.
  unfold Views.home_view, mbind, M_bind, try_except, Requests.get.
  rewrite H. rewrite raise_for_status_pass by exact E.
  unfold Requests.json. rewrite L. reflexivity.
Qed.

(** Any other status and a decoder that fails otherwise: its
    exception leaves the view, and nothing is logged. *)
Lemma run_aborted (r : Requests.Response) (k : Requests.abort_kind) (d : string)
    (s : process) :
  upstream target 5 = Requests.Responded r ->
  ~ Http.is_error (Requests.status_code r) ->
  loads (Requests.text r) = Requests.Aborted k d ->
  view s = (Py.Raise (Py.Exn (Requests.class_of_abort k) d), sent target s).
Proof.
  intros H E L.
  unfold Views.home_view, mbind, M_bind, try_except, Requests.get.
  rewrite H. rewrite raise_for_status_pass by exact E.
  unfold Requests.json. rewrite L.
  unfold raise, Py.isinstance. simpl Py.exn_type.
  rewrite abort_is_no_request_exception. reflexivity.
Qed.

(** The seven runs are all there is. *)
Lemma run_spec (s : process) : run_of environ upstream loads rel s (view s).
Proof.
  destruct (upstream target 5) as [k d | r | k d] eqn:H.
  - rewrite (run_failed k d s H). exact (run_of_failed _ _ _ _ _ k d H).
  - destruct (decide (Http.is_error (Requests.status_code r))) as [E | E].
    + rewrite (run_error_status r s H E). exact (run_of_error_status _ _ _ _ _ r H E).
    + destruct (loads (Requests.text r)) as [v | d | k d] eqn:L.
      * rewrite (run_decoded r v s H E L). exact (run_of_decoded _ _ _ _ _ r v H E L).
      * destruct (release_cases rel) as [V | V].
        -- rewrite (run_undecodable_raised r d s H E L V).
           exact (run_of_undecodable_raised _ _ _ _ _ r d H E L V).
        -- rewrite (run_undecodable_caught r d s H E L V).
           exact (run_of_undecodable_caught _ _ _ _ _ r d H E L V).
      * rewrite (run_aborted r k d s H E L). exact (run_of_aborted _ _ _ _ _ r k d H E L).
  - rewrite (run_escaped k d s H). exact (run_of_escaped _ _ _ _ _ k d H).
Qed.
End Runs.

(** ** The statements about [home_view] *)

Ltac run_cases H :=
  destruct H as [k d U | k d U | r U E | r v U E L | r d U E L V | r d U E L V | r k d U E L].

Section Claims.
Variable environ : gmap string string.
Variable upstream : string -> Z -> Requests.exchange.
Variable loads : string -> Requests.decoded.
Variable rel : Requests.release.
Variable request : Django.HttpRequest.

Abbreviation target := (Views.service_a_url environ).
Abbreviation view := (Views.home_view environ upstream loads rel request).

(** C1. A response with a 2xx status whose body parses as JSON: the
    view returns the page whose context binds ['data'] to the parsed
    body and nothing else. *)
Theorem home_view_pass_through (s : process) (r : Requests.Response) (v : Py.value) :
  upstream target 5 = Requests.Responded r ->
  Http.is_success (Requests.status_code r) ->
  loads (Requests.text r) = Requests.Decoded v ->
  exists response,
    (view s).1 = Py.Return response /\
    Django.context response !! "data" = Some v /\
    Django.context response = {[ "data" := v ]}.
Proof.
  intros H S L.
  assert (E : ~ Http.is_error (Requests.status_code r))
    by (unfold Http.is_success, Http.is_error in *; lia).
  rewrite (run_decoded environ upstream loads rel request r v s H E L).
  exists (page v). split; [reflexivity |].
  split; [apply lookup_singleton_eq | reflexivity].
Qed.

(** C2. A failed fetch (an exception of [requests], or an error
    status) renders exactly [{"items": []}] and appends exactly one
    ERROR record; a fetch that succeeds and parses leaves the log as
    it was; and the log is left as it was only then or when the view
    ends in an exception. *)
Theorem home_view_logs_iff_failure (s : process) :
  (Http.fetch_failed (upstream target 5) ->
     exists response text,
       (view s).1 = Py.Return response /\
       Django.context response !! "data" = Some (Py.VDict [("items", Py.VList [])]) /\
       log_records (view s).2 =
         (log_records s ++
            [ {| Logging.levelname := Logging.ERROR; Logging.msg := text |} ])%list) /\
  (forall r v,
     upstream target 5 = Requests.Responded r ->
     ~ Http.fetch_failed (upstream target 5) ->
     loads (Requests.text r) = Requests.Decoded v ->
     log_records (view s).2 = log_records s) /\
  (log_records (view s).2 = log_records s <->
     Http.fetched_and_parsed loads (upstream target 5) \/
     exists e, (view s).1 = Py.Raise e).
Proof.
  split; [| split].
  - intros F. destruct (upstream target 5) as [k d | r | k d] eqn:H.
    + rewrite (run_failed environ upstream loads rel request k d s H).
      exists (page Views.fallback), (complaint d).
      split; [reflexivity |]. split; [apply lookup_singleton_eq | reflexivity].
    + rewrite (run_error_status environ upstream loads rel request r s H F).
      exists (page Views.fallback), (complaint (http_error_text r)).
      split; [reflexivity |]. split; [apply lookup_singleton_eq | reflexivity].
    + destruct F.
  - intros r v H F L. rewrite H in F. simpl in F.
    rewrite (run_decoded environ upstream loads rel request r v s H F L). reflexivity.
  - run_cases (run_spec environ upstream loads rel request s);
      rewrite U; cbn [fst snd logged sent log_records Http.fetched_and_parsed].
    + split; [intros G; now apply one_more_differs in G |].
      intros [[] | [e G]]; discriminate G.
    + split; [intros _; right; eauto | reflexivity].
    + split; [intros G; now apply one_more_differs in G |].
      intros [[N _] | [e G]]; [now destruct N | discriminate G].
    + split; [| reflexivity]. intros _. left. split; [exact E | now exists v].
    + split; [intros G; now apply one_more_differs in G |].
      intros [[_ [v L']] | [e G]]; [rewrite L in L' | ]; discriminate.
    + split; [intros _; right; eauto | reflexivity].
    + split; [intros _; right; eauto | reflexivity].
Qed.

(** C3, as amended. The view ends in the rendered page exactly when
    the fetch fails with an exception of [requests] or an error
    status, when the body decodes, or when [requests] is 2.27 or
    later and the decoder rejects the body with [JSONDecodeError]; in
    every other case an exception that is no [RequestException]
    leaves the view, and nothing is logged. *)
Theorem home_view_renders_or_raises (s : process) :
  (rendered (view s) <->
     Http.fetch_failed (upstream target 5) \/
     Http.fetched_and_parsed loads (upstream target 5) \/
     exists r d, upstream target 5 = Requests.Responded r /\
                 ~ Http.is_error (Requests.status_code r) /\
                 loads (Requests.text r) = Requests.Undecodable d /\
                 rel = Requests.Since_2_27) /\
  (~ rendered (view s) ->
     exists e s',
       view s = (Py.Raise e, s') /\
       Py.isinstance e Py.RequestException = false /\
       log_records s' = log_records s).
Proof.
  unfold rendered.
  run_cases (run_spec environ upstream loads rel request s);
    rewrite U; cbn [Http.fetch_failed Http.fetched_and_parsed].
  - split; [split; [tauto | intros _; now eexists _, _] |].
    intros N. exfalso. apply N. now eexists _, _.
  - split.
    + split; [intros (? & ? & G & _); discriminate G |].
      intros [[] | [[] | (r & ? & G & _)]]. discriminate G.
    + intros _. eexists _, _. split; [reflexivity |].
      split; [apply stray_is_no_request_exception | reflexivity].
  - split; [split; [tauto | intros _; now eexists _, _] |].
    intros N. exfalso. apply N. now eexists _, _.
  - split; [split; [| intros _; now eexists _, _] |].
    + intros _. right; left. split; [exact E | now exists v].
    + intros N. exfalso. apply N. now eexists _, _.
  - split; [split; [| intros _; now eexists _, _] |].
    + intros _. right; right. now exists r, d.
    + intros N. exfalso. apply N. now eexists _, _.
  - split.
    + split; [intros (? & ? & G & _); discriminate G |].
      intros [N | [[_ [v L']] | (r' & d' & _ & _ & _ & V')]].
      * tauto.
      * rewrite L in L'. discriminate L'.
      * rewrite V in V'. discriminate V'.
    + intros _. eexists _, _. split; [reflexivity |]. split; reflexivity.
  - split.
    + split; [intros (? & ? & G & _); discriminate G |].
      intros [N | [[_ [v L']] | (r' & d' & G & _ & L' & _)]].
      * tauto.
      * rewrite L in L'. discriminate L'.
      * injection G as <-. rewrite L in L'. discriminate L'.
    + intros _. eexists _, _. split; [reflexivity |].
      split; [apply abort_is_no_request_exception | reflexivity].
Qed.

(** C7. One invocation hands [requests] exactly one call: a GET of
    the resolved URL with a timeout of 5 seconds, whatever comes
    back. *)
Theorem home_view_one_get (s : process) :
  outbound (view s).2 =
    (outbound s ++
       [ {| call_method := "GET"; call_url := target; call_timeout := 5 |} ])%list.
Proof.
  run_cases (run_spec environ upstream loads rel request s); reflexivity.
Qed.
End Claims.

(** ** The upstream URL *)

(** C4. The URL is [http://{host}:8000/api/data/] for the value of
    [SERVICE_A_HOST], the URL of [service-a] when the variable is
    unset, and the URL of [alt-host] when it is set to that. *)
Theorem service_a_url_computed (environ : gmap string string) :
  (forall host, environ !! "SERVICE_A_HOST" = Some host ->
     Views.service_a_url environ = "http://" +:+ host +:+ ":8000/api/data/") /\
  (environ !! "SERVICE_A_HOST" = None ->
     Views.service_a_url environ = "http://service-a:8000/api/data/") /\
  (environ !! "SERVICE_A_HOST" = Some "alt-host" ->
     Views.service_a_url environ = "http://alt-host:8000/api/data/").
Proof.
  unfold Views.service_a_url, Views.service_a_host, Py.environ_get.
  repeat split; intros; match goal with H : _ !! _ = _ |- _ => rewrite H end; reflexivity.
Qed.

(** C9. A variable set to the empty string is not defaulted: the URL
    has an empty host and differs from the default URL. *)
Theorem service_a_url_empty_host (environ : gmap string string) :
  environ !! "SERVICE_A_HOST" = Some EmptyString ->
  Views.service_a_url environ = "http://:8000/api/data/" /\
  Views.service_a_url environ <> "http://service-a:8000/api/data/".
Proof.
  intros H. unfold Views.service_a_url, Views.service_a_host, Py.environ_get.
  rewrite H. split; [reflexivity | discriminate].
Qed.

(** ** Which statuses fail, and what a bad body does *)

(** C5, as amended. A response with a 4xx or 5xx status takes the
    failure path: the fallback is rendered and one ERROR record
    written.  A response with any other status, 2xx or not, passes the
    check: when its body parses, the parsed body is rendered and
    nothing is logged. *)
Theorem error_status_takes_failure_path
    (environ : gmap string string) (upstream : string -> Z -> Requests.exchange)
    (loads : string -> Requests.decoded) (rel : Requests.release)
    (request : Django.HttpRequest) (s : process) (r : Requests.Response) :
  upstream (Views.service_a_url environ) 5 = Requests.Responded r ->
  (Http.is_error (Requests.status_code r) ->
     exists text,
       (Views.home_view environ upstream loads rel request s).1
         = Py.Return (page (Py.VDict [("items", Py.VList [])])) /\
       log_records (Views.home_view environ upstream loads rel request s).2
         = (log_records s ++ [error_record text])%list) /\
  (~ Http.is_error (Requests.status_code r) ->
     forall v, loads (Requests.text r) = Requests.Decoded v ->
       (Views.home_view environ upstream loads rel request s).1 = Py.Return (page v) /\
       log_records (Views.home_view environ upstream loads rel request s).2 = log_records s).
Proof.
  intros H. split.
  - intros E. exists (complaint (http_error_text r)).
    rewrite (run_error_status environ upstream loads rel request r s H E).
    split; reflexivity.
  - intros E v L.
    rewrite (run_decoded environ upstream loads rel request r v s H E L).
    split; reflexivity.
Qed.

(** C6, as amended. The clause covers only instances of
    [RequestException].  For a 2xx response whose body is not valid
    JSON: a decoder that fails with another exception ([ValueError],
    [RecursionError]), and any decoder failure under a [requests] older
    than 2.27, gives a fault the clause does not cover, which leaves
    the view with nothing logged; under 2.27 or later the decoder's
    [JSONDecodeError] comes out of [Response.json] as the one of
    [requests], which the clause covers: one ERROR record, the
    fallback rendered. *)
Theorem undecodable_body_caught_or_raised
    (environ : gmap string string) (upstream : string -> Z -> Requests.exchange)
    (loads : string -> Requests.decoded) (rel : Requests.release)
    (request : Django.HttpRequest) (s : process) (r : Requests.Response) :
  upstream (Views.service_a_url environ) 5 = Requests.Responded r ->
  Http.is_success (Requests.status_code r) ->
  (forall d, loads (Requests.text r) = Requests.Undecodable d ->
     rel = Requests.Since_2_27 ->
     Requests.json loads rel r s = (Py.Raise (Py.Exn Py.JSONDecodeError d), s) /\
     Py.isinstance (Py.Exn Py.JSONDecodeError d) Py.RequestException = true /\
     (Views.home_view environ upstream loads rel request s).1
       = Py.Return (page (Py.VDict [("items", Py.VList [])])) /\
     log_records (Views.home_view environ upstream loads rel request s).2
       = (log_records s ++
            [error_record ("Error connecting to Service A: " +:+ d)])%list) /\
  (forall d, loads (Requests.text r) = Requests.Undecodable d ->
     rel = Requests.Before_2_27 ->
     Requests.json loads rel r s = (Py.Raise (Py.Exn Py.json_JSONDecodeError d), s) /\
     Py.isinstance (Py.Exn Py.json_JSONDecodeError d) Py.RequestException = false /\
     (Views.home_view environ upstream loads rel request s).1
       = Py.Raise (Py.Exn Py.json_JSONDecodeError d) /\
     log_records (Views.home_view environ upstream loads rel request s).2 = log_records s) /\
  (forall k d, loads (Requests.text r) = Requests.Aborted k d ->
     Requests.json loads rel r s = (Py.Raise (Py.Exn (Requests.class_of_abort k) d), s) /\
     Py.isinstance (Py.Exn (Requests.class_of_abort k) d) Py.RequestException = false /\
     (Views.home_view environ upstream loads rel request s).1
       = Py.Raise (Py.Exn (Requests.class_of_abort k) d) /\
     log_records (Views.home_view environ upstream loads rel request s).2 = log_records s).
Proof.
  intros H S.
  assert (E : ~ Http.is_error (Requests.status_code r))
    by (unfold Http.is_success, Http.is_error in *; lia).
  split; [| split].
  - intros d L V.
    rewrite (run_undecodable_caught environ upstream loads rel request r d s H E L V).
    unfold Requests.json. rewrite L. subst rel. repeat split; reflexivity.
  - intros d L V.
    rewrite (run_undecodable_raised environ upstream loads rel request r d s H E L V).
    unfold Requests.json. rewrite L. subst rel. repeat split; reflexivity.
  - intros k d L.
    rewrite (run_aborted environ upstream loads rel request r k d s H E L).
    unfold Requests.json. rewrite L.
    split; [reflexivity |]. split; [apply abort_is_no_request_exception |].
    split; reflexivity.
Qed.

(** C10. No shape is asked of the parsed body: a 2xx response whose
    body parses to a value that is no mapping with an [items]
    sequence (an array, a string, a number, a mapping without the key)
    is rendered with ['data'] bound to that value. *)
Theorem home_view_no_shape_check
    (environ : gmap string string) (upstream : string -> Z -> Requests.exchange)
    (loads : string -> Requests.decoded) (rel : Requests.release)
    (request : Django.HttpRequest) (s : process) (r : Requests.Response) (v : Py.value) :
  upstream (Views.service_a_url environ) 5 = Requests.Responded r ->
  Http.is_success (Requests.status_code r) ->
  loads (Requests.text r) = Requests.Decoded v ->
  is_items_payload v = false ->
  Views.home_view environ upstream loads rel request s
    = (Py.Return {| Django.status := 200; Django.template_name := "home.html";
                    Django.context := {[ "data" := v ]} |},
       sent (Views.service_a_url environ) s).
Proof.
  intros H S L _.
  assert (E : ~ Http.is_error (Requests.status_code r))
    by (unfold Http.is_success, Http.is_error in *; lia).
  exact (run_decoded environ upstream loads rel request r v s H E L).
Qed.

(** ** Repeated invocations *)

(** C8. The response depends on the value of [SERVICE_A_HOST] and on
    what the upstream answers, and on nothing an earlier invocation
    left behind: with the same host setting and the same answer, two
    invocations from any two process states return the same thing. *)
Theorem home_view_deterministic
    (environ environ' : gmap string string)
    (upstream upstream' : string -> Z -> Requests.exchange)
    (loads : string -> Requests.decoded) (rel : Requests.release)
    (request : Django.HttpRequest) (s s' : process) :
  environ !! "SERVICE_A_HOST" = environ' !! "SERVICE_A_HOST" ->
  same_exchange (upstream (Views.service_a_url environ) 5)
                (upstream' (Views.service_a_url environ) 5) ->
  (Views.home_view environ upstream loads rel request s).1
    = (Views.home_view environ' upstream' loads rel request s').1.
Proof.
  intros He Hx.
  assert (Hu : Views.service_a_url environ' = Views.service_a_url environ)
    by (unfold Views.service_a_url, Views.service_a_host, Py.environ_get;
        now rewrite He).
  destruct (run_spec environ upstream loads rel request s)
    as [k d U | k d U | r U E | r v U E L | r d U E L V | r d U E L V | r k d U E L];
  destruct (run_spec environ' upstream' loads rel request s')
    as [k' d' U' | k' d' U' | r' U' E' | r' v' U' E' L' | r' d' U' E' L' V'
        | r' d' U' E' L' V' | r' k' d' U' E' L'];
  rewrite Hu in U'; rewrite U, U' in Hx; cbn [same_exchange] in Hx;
  try (now destruct Hx); try reflexivity;
  destruct Hx as [Hs Ht]; cbn [fst];
  try (now subst);
  try (rewrite Hs in E; tauto);
  try (rewrite V in V'; discriminate V');
  rewrite Ht in L; rewrite L in L'; try discriminate L';
  now simplify_eq.
Qed.

(** ** The statements at concrete inputs *)

Lemma page_data_differs (v w : Py.value) : v <> w -> page v <> page w.
Proof.
  intros N H. apply N.
  assert (L : Django.context (page v) !! "data" = Django.context (page w) !! "data")
    by now rewrite H.
  unfold page in L. simpl in L. rewrite !lookup_singleton_eq in L. now injection L.
Qed.

(** The scenario of the spec: 200 with [{"items": ["a","b"]}]. *)
Lemma home_view_pass_through_witness :
  exists response,
    (Views.home_view Sample.unset Sample.ok_items Sample.loads Requests.Since_2_27
       Sample.request Sample.idle).1
      = Py.Return response /\
    Django.context response !! "data" = Some Sample.items_ab /\
    Django.context response = {[ "data" := Sample.items_ab ]}.
Proof.
  eapply (home_view_pass_through Sample.unset Sample.ok_items Sample.loads
            Requests.Since_2_27 Sample.request Sample.idle).
  - reflexivity.
  - unfold Http.is_success. simpl. lia.
  - reflexivity.
Defined.

(** A read timeout is logged once; the 200 of [ok_items] is not. *)
Lemma home_view_logs_iff_failure_witness :
  (exists response text,
     (Views.home_view Sample.unset Sample.timed_out Sample.loads Requests.Since_2_27
        Sample.request Sample.idle).1
       = Py.Return response /\
     Django.context response !! "data" = Some (Py.VDict [("items", Py.VList [])]) /\
     log_records
       (Views.home_view Sample.unset Sample.timed_out Sample.loads Requests.Since_2_27
          Sample.request Sample.idle).2
       = ([] ++ [ {| Logging.levelname := Logging.ERROR; Logging.msg := text |} ])%list) /\
  log_records
    (Views.home_view Sample.unset Sample.ok_items Sample.loads Requests.Since_2_27
       Sample.request Sample.idle).2
    = [].
Proof.
  split.
  - apply (proj1 (home_view_logs_iff_failure Sample.unset Sample.timed_out Sample.loads
                    Requests.Since_2_27 Sample.request Sample.idle)).
    exact I.
  - eapply (proj1 (proj2 (home_view_logs_iff_failure Sample.unset Sample.ok_items
                            Sample.loads Requests.Since_2_27 Sample.request Sample.idle))).
    + reflexivity.
    + unfold Http.fetch_failed, Http.is_error. simpl. lia.
    + reflexivity.
Defined.

(** C3, as stated, fails at a 200 whose body is 4400 digits and a
    brace: the decoder raises [ValueError], which the clause does not
    cover; the view ends in that exception and renders nothing. *)
Lemma digits_body_leaves_the_view :
  (exists r, Sample.ok_digits (Views.service_a_url Sample.unset) 5 = Requests.Responded r /\
             Http.is_success (Requests.status_code r)) /\
  Views.home_view Sample.unset Sample.ok_digits Sample.loads Requests.Since_2_27
      Sample.request Sample.idle
    = (Py.Raise
         (Py.Exn Py.ValueError
            "Exceeds the limit (4300 digits) for integer string conversion: value has 4400 digits; use sys.set_int_max_str_digits() to increase the limit"),
       {| log_records := []; outbound := [get_call "http://service-a:8000/api/data/"] |}) /\
  (forall response s',
     Views.home_view Sample.unset Sample.ok_digits Sample.loads Requests.Since_2_27
         Sample.request Sample.idle
       <> (Py.Return response, s')).
Proof.
  assert (R : Views.home_view Sample.unset Sample.ok_digits Sample.loads Requests.Since_2_27
      Sample.request Sample.idle
    = (Py.Raise
         (Py.Exn Py.ValueError
            "Exceeds the limit (4300 digits) for integer string conversion: value has 4400 digits; use sys.set_int_max_str_digits() to increase the limit"),
       {| log_records := []; outbound := [get_call "http://service-a:8000/api/data/"] |}))
    by (vm_compute; reflexivity).
  split; [| split].
  - eexists. split; [reflexivity |]. unfold Http.is_success. simpl. lia.
  - exact R.
  - intros response s'. rewrite R. discriminate.
Qed.

(** A read timeout is rendered; the body of digits is not. *)
Lemma home_view_renders_or_raises_witness :
  rendered
    (Views.home_view Sample.unset Sample.timed_out Sample.loads Requests.Since_2_27
       Sample.request Sample.idle) /\
  exists e s',
    Views.home_view Sample.unset Sample.ok_digits Sample.loads Requests.Since_2_27
        Sample.request Sample.idle = (Py.Raise e, s') /\
    Py.isinstance e Py.RequestException = false /\
    log_records s' = log_records Sample.idle.
Proof.
  split.
  - apply (proj1 (home_view_renders_or_raises Sample.unset Sample.timed_out Sample.loads
                    Requests.Since_2_27 Sample.request Sample.idle)).
    left. exact I.
  - apply (proj2 (home_view_renders_or_raises Sample.unset Sample.ok_digits Sample.loads
                    Requests.Since_2_27 Sample.request Sample.idle)).
    intros (response & s' & G & _). vm_compute in G. discriminate G.
Defined.

Lemma service_a_url_computed_witness :
  Views.service_a_url Sample.unset = "http://service-a:8000/api/data/" /\
  Views.service_a_url Sample.alt_host = "http://alt-host:8000/api/data/" /\
  Views.service_a_url Sample.alt_host = "http://" +:+ "alt-host" +:+ ":8000/api/data/".
Proof.
  split; [| split].
  - apply (proj1 (proj2 (service_a_url_computed Sample.unset))). reflexivity.
  - apply (proj2 (proj2 (service_a_url_computed Sample.alt_host))). reflexivity.
  - apply (proj1 (service_a_url_computed Sample.alt_host)). reflexivity.
Defined.

Lemma service_a_url_empty_host_witness :
  Views.service_a_url Sample.empty_host = "http://:8000/api/data/" /\
  Views.service_a_url Sample.empty_host <> "http://service-a:8000/api/data/".
Proof. apply (service_a_url_empty_host Sample.empty_host). reflexivity. Defined.

(** C5, as stated, fails at a 300 whose body parses: the status is
    not 2xx, yet the parsed body is rendered and nothing is logged. *)
Lemma multiple_choices_is_not_a_failure :
  (exists r, Sample.multiple_choices (Views.service_a_url Sample.unset) 5 = Requests.Responded r /\
             Requests.status_code r = 300 /\ ~ Http.is_success (Requests.status_code r)) /\
  Views.home_view Sample.unset Sample.multiple_choices Sample.loads Requests.Since_2_27
      Sample.request Sample.idle
    = (Py.Return (page Sample.items_ab),
       {| log_records := []; outbound := [get_call "http://service-a:8000/api/data/"] |}) /\
  page Sample.items_ab <> page (Py.VDict [("items", Py.VList [])]).
Proof.
  split; [| split].
  - eexists. split; [reflexivity |]. split; [reflexivity |].
    unfold Http.is_success. simpl. lia.
  - vm_compute. reflexivity.
  - apply page_data_differs. discriminate.
Qed.

(** A 404 takes the failure path; a 300 with a body that parses does not. *)
Lemma error_status_takes_failure_path_witness :
  (exists text,
     (Views.home_view Sample.unset Sample.not_found Sample.loads Requests.Since_2_27
        Sample.request Sample.idle).1
       = Py.Return (page (Py.VDict [("items", Py.VList [])])) /\
     log_records
       (Views.home_view Sample.unset Sample.not_found Sample.loads Requests.Since_2_27
          Sample.request Sample.idle).2
       = ([] ++ [error_record text])%list) /\
  (Views.home_view Sample.unset Sample.multiple_choices Sample.loads Requests.Since_2_27
     Sample.request Sample.idle).1
    = Py.Return (page Sample.items_ab) /\
  log_records
    (Views.home_view Sample.unset Sample.multiple_choices Sample.loads Requests.Since_2_27
       Sample.request Sample.idle).2
    = [].
Proof.
  split.
  - eapply (proj1 (error_status_takes_failure_path Sample.unset Sample.not_found Sample.loads
                     Requests.Since_2_27 Sample.request Sample.idle _ eq_refl)).
    unfold Http.is_error. simpl. lia.
  - eapply (proj2 (error_status_takes_failure_path Sample.unset Sample.multiple_choices
                     Sample.loads Requests.Since_2_27 Sample.request Sample.idle _ eq_refl)).
    + unfold Http.is_error. simpl. lia.
    + reflexivity.
Defined.

(** C6, as stated, fails at a 200 whose body is HTML under requests
    2.27 or later: the parse fault is caught, the view returns the
    fallback page and raises nothing. *)
Lemma html_body_does_not_propagate :
  (exists r, Sample.ok_html (Views.service_a_url Sample.unset) 5 = Requests.Responded r /\
             Http.is_success (Requests.status_code r) /\
             Sample.loads (Requests.text r)
               = Requests.Undecodable "Expecting value: line 1 column 1 (char 0)") /\
  Views.home_view Sample.unset Sample.ok_html Sample.loads Requests.Since_2_27
      Sample.request Sample.idle
    = (Py.Return (page (Py.VDict [("items", Py.VList [])])),
       {| log_records :=
            [error_record
               "Error connecting to Service A: Expecting value: line 1 column 1 (char 0)"];
          outbound := [get_call "http://service-a:8000/api/data/"] |}) /\
  (forall e s',
     Views.home_view Sample.unset Sample.ok_html Sample.loads Requests.Since_2_27
         Sample.request Sample.idle
       <> (Py.Raise e, s')).
Proof.
  assert (R : Views.home_view Sample.unset Sample.ok_html Sample.loads Requests.Since_2_27
      Sample.request Sample.idle
    = (Py.Return (page (Py.VDict [("items", Py.VList [])])),
       {| log_records :=
            [error_record
               "Error connecting to Service A: Expecting value: line 1 column 1 (char 0)"];
          outbound := [get_call "http://service-a:8000/api/data/"] |}))
    by (vm_compute; reflexivity).
  split; [| split].
  - eexists. split; [reflexivity |]. split; [| vm_compute; reflexivity].
    unfold Http.is_success. simpl. lia.
  - exact R.
  - intros e s'. rewrite R. discriminate.
Qed.

(** The HTML body under the two releases, and the body of digits. *)
Lemma undecodable_body_caught_or_raised_witness :
  ((Views.home_view Sample.unset Sample.ok_html Sample.loads Requests.Since_2_27
      Sample.request Sample.idle).1
     = Py.Return (page (Py.VDict [("items", Py.VList [])])) /\
   log_records
     (Views.home_view Sample.unset Sample.ok_html Sample.loads Requests.Since_2_27
        Sample.request Sample.idle).2
     = ([] ++ [error_record
                 ("Error connecting to Service A: "
                    +:+ "Expecting value: line 1 column 1 (char 0)")])%list) /\
  ((Views.home_view Sample.unset Sample.ok_html Sample.loads Requests.Before_2_27
      Sample.request Sample.idle).1
     = Py.Raise (Py.Exn Py.json_JSONDecodeError "Expecting value: line 1 column 1 (char 0)") /\
   log_records
     (Views.home_view Sample.unset Sample.ok_html Sample.loads Requests.Before_2_27
        Sample.request Sample.idle).2 = []) /\
  (exists d,
     (Views.home_view Sample.unset Sample.ok_digits Sample.loads Requests.Since_2_27
        Sample.request Sample.idle).1
       = Py.Raise (Py.Exn Py.ValueError d) /\
     log_records
       (Views.home_view Sample.unset Sample.ok_digits Sample.loads Requests.Since_2_27
          Sample.request Sample.idle).2 = []).
Proof.
  split; [| split].
  - eapply (proj1 (undecodable_body_caught_or_raised Sample.unset Sample.ok_html Sample.loads
                     Requests.Since_2_27 Sample.request Sample.idle _ eq_refl _)).
    + vm_compute. reflexivity.
    + reflexivity.
  - eapply (proj1 (proj2 (undecodable_body_caught_or_raised Sample.unset Sample.ok_html
                            Sample.loads Requests.Before_2_27 Sample.request Sample.idle
                            _ eq_refl _))).
    + vm_compute. reflexivity.
    + reflexivity.
  - eexists.
    eapply (proj2 (proj2 (undecodable_body_caught_or_raised Sample.unset Sample.ok_digits
                            Sample.loads Requests.Since_2_27 Sample.request Sample.idle
                            _ eq_refl _)) Requests.AValueError).
    vm_compute. reflexivity.
  Unshelve.
  all: unfold Http.is_success; simpl; lia.
Defined.

(** A JSON array is rendered as it is. *)
Lemma home_view_no_shape_check_witness :
  Views.home_view Sample.unset Sample.ok_array Sample.loads Requests.Since_2_27
      Sample.request Sample.idle
    = (Py.Return {| Django.status := 200; Django.template_name := "home.html";
                    Django.context := {[ "data" := Py.VList [Py.VInt 1; Py.VInt 2] ]} |},
       sent (Views.service_a_url Sample.unset) Sample.idle).
Proof.
  eapply (home_view_no_shape_check Sample.unset Sample.ok_array Sample.loads
            Requests.Since_2_27 Sample.request Sample.idle).
  - reflexivity.
  - unfold Http.is_success. simpl. lia.
  - reflexivity.
  - reflexivity.
Defined.

(** A second invocation, from the state the first one left, in an
    environment that differs in another variable, against an upstream
    that words its answer differently. *)
Lemma home_view_deterministic_witness :
  (Views.home_view Sample.unset Sample.ok_items Sample.loads Requests.Since_2_27
     Sample.request Sample.idle).1
    = (Views.home_view Sample.unset_with_path Sample.ok_items_terse Sample.loads
         Requests.Since_2_27 Sample.request
         (Views.home_view Sample.unset Sample.ok_items Sample.loads Requests.Since_2_27
            Sample.request Sample.idle).2).1.
Proof.
  apply home_view_deterministic.
  - reflexivity.
  - simpl. split; reflexivity.
Defined.

(** ** Further properties of [home_view] *)

Lemma page_inj (v w : Py.value) : page v = page w -> v = w.
Proof.
  intros H.
  assert (L : Django.context (page v) !! "data" = Django.context (page w) !! "data")
    by now rewrite H.
  unfold page in L. simpl in L. rewrite !lookup_singleton_eq in L. now injection L.
Qed.

Lemma append_length (a b : string) :
  String.length (a +:+ b) = (String.length a + String.length b)%nat.
Proof. induction a as [|c a IH]; simpl; [reflexivity | now rewrite IH]. Qed.

Lemma append_inv_tail (a a' b : string) : a +:+ b = a' +:+ b -> a = a'.
Proof.
  revert a'. induction a as [|c a IH]; intros [|c' a'] H; simpl in H.
  - reflexivity.
  - apply (f_equal String.length) in H. simpl in H. rewrite !append_length in H.
    simpl in H. lia.
  - apply (f_equal String.length) in H. simpl in H. rewrite !append_length in H.
    simpl in H. lia.
  - injection H as -> H. f_equal. now apply IH.
Qed.

Lemma service_a_url_inj_host (environ environ' : gmap string string) :
  Views.service_a_url environ = Views.service_a_url environ' ->
  Views.service_a_host environ = Views.service_a_host environ'.
Proof.
  unfold Views.service_a_url. intros H.
  apply (inj (String.app "http://")) in H.
  now apply append_inv_tail in H.
Qed.

(** How one invocation ends and what it appends is fixed by the
    environment, the upstream, the decoder and the release; the
    inbound request and the state it starts from do not enter. *)
Lemma view_step (environ : gmap string string)
    (upstream : string -> Z -> Requests.exchange) (loads : string -> Requests.decoded)
    (rel : Requests.release) :
  exists (out : Py.outcome Django.HttpResponse) (entry : list Logging.LogRecord),
    (length entry <= 1)%nat /\
    Forall (fun record => Logging.levelname record = Logging.ERROR) entry /\
    forall request s,
      Views.home_view environ upstream loads rel request s
        = (out,
           {| log_records := log_records s ++ entry;
              outbound := outbound s ++ [get_call (Views.service_a_url environ)] |}).
Proof.
  assert (Q : forall s, sent (Views.service_a_url environ) s
                = {| log_records := log_records s ++ [];
                     outbound := outbound s ++ [get_call (Views.service_a_url environ)] |})
    by (intros s; unfold sent; now rewrite app_nil_r).
  destruct (upstream (Views.service_a_url environ) 5) as [k d | r | k d] eqn:H.
  - eexists _, [error_record (complaint d)]. split; [simpl; lia |].
    split; [now repeat constructor |]. intros request s.
    exact (run_failed environ upstream loads rel request k d s H).
  - destruct (decide (Http.is_error (Requests.status_code r))) as [E | E].
    + eexists _, [error_record (complaint (http_error_text r))].
      split; [simpl; lia |]. split; [now repeat constructor |]. intros request s.
      exact (run_error_status environ upstream loads rel request r s H E).
    + destruct (loads (Requests.text r)) as [v | d | k d] eqn:L.
      * eexists _, []. split; [simpl; lia |]. split; [constructor |]. intros request s.
        rewrite <- Q. exact (run_decoded environ upstream loads rel request r v s H E L).
      * destruct (release_cases rel) as [V | V].
        -- eexists _, []. split; [simpl; lia |]. split; [constructor |].
           intros request s. rewrite <- Q.
           exact (run_undecodable_raised environ upstream loads rel request r d s H E L V).
        -- eexists _, [error_record (complaint d)]. split; [simpl; lia |].
           split; [now repeat constructor |]. intros request s.
           exact (run_undecodable_caught environ upstream loads rel request r d s H E L V).
      * eexists _, []. split; [simpl; lia |]. split; [constructor |]. intros request s.
        rewrite <- Q. exact (run_aborted environ upstream loads rel request r k d s H E L).
  - eexists _, []. split; [simpl; lia |]. split; [constructor |]. intros request s.
    rewrite <- Q. exact (run_escaped environ upstream loads rel request k d s H).
Qed.

Section Further.
Variable environ : gmap string string.
Variable upstream : string -> Z -> Requests.exchange.
Variable loads : string -> Requests.decoded.
Variable rel : Requests.release.

Abbreviation the_url := (Views.service_a_url environ).
Abbreviation the_view := (Views.home_view environ upstream loads rel).


(** X2. The text of the record names the failure: for a fault of
    [requests.get] it ends in the fault's description; for a 4xx
    status in [<status> Client Error: <reason> for url: <url>], and
    for a 5xx status in the same with [Server Error]. *)
Theorem home_view_log_text (request : Django.HttpRequest) (s : process) :
  (forall k d, upstream the_url 5 = Requests.Failed k d ->
     log_records (the_view request s).2 =
       (log_records s ++ [error_record ("Error connecting to Service A: " +:+ d)])%list) /\
  (forall r, upstream the_url 5 = Requests.Responded r ->
     400 <= Requests.status_code r < 500 ->
     log_records (the_view request s).2 =
       (log_records s ++
          [error_record ("Error connecting to Service A: " +:+
             pretty (Requests.status_code r) +:+ " Client Error: " +:+
             Requests.reason r +:+ " for url: " +:+ Requests.url r)])%list) /\
  (forall r, upstream the_url 5 = Requests.Responded r ->
     500 <= Requests.status_code r < 600 ->
     log_records (the_view request s).2 =
       (log_records s ++
          [error_record ("Error connecting to Service A: " +:+
             pretty (Requests.status_code r) +:+ " Server Error: " +:+
             Requests.reason r +:+ " for url: " +:+ Requests.url r)])%list).
Proof.
  split; [| split].
  - intros k d H. now rewrite (run_failed environ upstream loads rel request k d s H).
  - intros r H E.
    assert (E' : Http.is_error (Requests.status_code r)) by (unfold Http.is_error; lia).
    rewrite (run_error_status environ upstream loads rel request r s H E').
    simpl. unfold complaint, http_error_text.
    rewrite bool_decide_eq_true_2 by lia. reflexivity.
  - intros r H E.
    assert (E' : Http.is_error (Requests.status_code r)) by (unfold Http.is_error; lia).
    rewrite (run_error_status environ upstream loads rel request r s H E').
    simpl. unfold complaint, http_error_text.
    rewrite bool_decide_eq_false_2 by lia. reflexivity.
Qed.

(** X3. Every response the view returns carries a context with the
    one key ['data'], whose value is either the fallback or what the
    body of the upstream's response decodes to; the view makes up
    nothing else. *)
Theorem home_view_data_provenance (request : Django.HttpRequest) (s s' : process)
    (response : Django.HttpResponse) :
  the_view request s = (Py.Return response, s') ->
  dom (Django.context response) = {[ "data" ]} /\
  exists v,
    Django.context response !! "data" = Some v /\
    (v = Py.VDict [("items", Py.VList [])] \/
     exists r, upstream the_url 5 = Requests.Responded r /\
               ~ Http.is_error (Requests.status_code r) /\
               loads (Requests.text r) = Requests.Decoded v).
Proof.
  run_cases (run_spec environ upstream loads rel request s);
    intros G; try discriminate G; injection G as <- _.
  1, 2, 4: (split; [apply dom_singleton_L |]); exists Views.fallback;
    (split; [apply lookup_singleton_eq | now left]).
  split; [apply dom_singleton_L |]. exists v.
  split; [apply lookup_singleton_eq |]. right. now exists r.
Qed.

(** X4. A response the view returns is the fallback page exactly when
    the fetch did not succeed and parse, or when the upstream's own
    body decodes to [{"items": []}]: from the response alone a
    handled failure cannot be told from an upstream with no items. *)
Theorem home_view_fallback_iff (request : Django.HttpRequest) (s s' : process)
    (response : Django.HttpResponse) :
  the_view request s = (Py.Return response, s') ->
  (response = page (Py.VDict [("items", Py.VList [])]) <->
   (~ Http.fetched_and_parsed loads (upstream the_url 5) \/
    exists r, upstream the_url 5 = Requests.Responded r /\
              loads (Requests.text r) = Requests.Decoded (Py.VDict [("items", Py.VList [])]))).
Proof.
  run_cases (run_spec environ upstream loads rel request s);
    intros G; try discriminate G; injection G as <- _;
    rewrite U; cbn [Http.fetched_and_parsed].
  - split; [intros _; left; tauto | reflexivity].
  - split; [intros _; left; tauto | reflexivity].
  - split.
    + intros P. apply page_inj in P. subst v. right. now exists r.
    + intros [N | (r' & Hr & L')].
      * exfalso. apply N. split; [exact E | now exists v].
      * injection Hr as <-. rewrite L in L'. now injection L' as ->.
  - split; [| reflexivity]. intros _. left. intros [_ [v L']].
    rewrite L in L'. discriminate L'.
Qed.

(** X5. What one invocation appends to the log and to the outbound
    calls, and the page it returns, are the same for any two inbound
    requests and any two states it starts from. *)
Theorem home_view_effects_independent (request request' : Django.HttpRequest)
    (s s' : process) :
  (the_view request s).1 = (the_view request' s').1 /\
  exists entry : list Logging.LogRecord,
    log_records (the_view request s).2 = (log_records s ++ entry)%list /\
    log_records (the_view request' s').2 = (log_records s' ++ entry)%list /\
    outbound (the_view request s).2 = (outbound s ++ [get_call the_url])%list /\
    outbound (the_view request' s').2 = (outbound s' ++ [get_call the_url])%list.
Proof.
  destruct (view_step environ upstream loads rel) as (out & entry & _ & _ & V).
  rewrite (V request s), (V request' s'). simpl.
  split; [reflexivity |]. exists entry. repeat split; reflexivity.
Qed.
End Further.


(** ** Further properties of the upstream URL *)

(** X7. The URL determines the host it was built from: two
    environments give the same URL exactly when they give the same
    host, so distinct host settings never share an upstream URL. *)
Theorem service_a_url_separates_hosts (environ environ' : gmap string string) :
  Views.service_a_url environ = Views.service_a_url environ' <->
  Views.service_a_host environ = Views.service_a_host environ'.
Proof.
  split; [apply service_a_url_inj_host |].
  unfold Views.service_a_url. now intros ->.
Qed.

(** X8. The URL is the default one exactly when [SERVICE_A_HOST] is
    unset or set to [service-a] itself. *)
Theorem service_a_url_default_iff (environ : gmap string string) :
  Views.service_a_url environ = "http://service-a:8000/api/data/" <->
  (environ !! "SERVICE_A_HOST" = None \/ environ !! "SERVICE_A_HOST" = Some "service-a").
Proof.
  split.
  - intros H.
    assert (G : Views.service_a_host environ = Views.service_a_host ∅)
      by (apply service_a_url_inj_host; rewrite H; reflexivity).
    unfold Views.service_a_host, Py.environ_get in G. rewrite lookup_empty in G.
    destruct (environ !! "SERVICE_A_HOST") as [h |]; [right; now subst h | now left].
  - unfold Views.service_a_url, Views.service_a_host, Py.environ_get.
    intros [-> | ->]; reflexivity.
Qed.

(** X9. An invocation depends on its surroundings only through the
    value of [SERVICE_A_HOST], the upstream's answer to the one GET of
    that URL with timeout 5, and the decoding of that answer's body:
    when these agree, the response, the log and the outbound calls
    agree, whatever else differs. *)
Theorem home_view_local
    (environ environ' : gmap string string)
    (upstream upstream' : string -> Z -> Requests.exchange)
    (loads loads' : string -> Requests.decoded) (rel : Requests.release)
    (request : Django.HttpRequest) (s : process) :
  environ !! "SERVICE_A_HOST" = environ' !! "SERVICE_A_HOST" ->
  upstream (Views.service_a_url environ) 5 = upstream' (Views.service_a_url environ) 5 ->
  (forall r, upstream (Views.service_a_url environ) 5 = Requests.Responded r ->
     loads (Requests.text r) = loads' (Requests.text r)) ->
  Views.home_view environ upstream loads rel request s
    = Views.home_view environ' upstream' loads' rel request s.
Proof.
  intros He Hu Hl.
  assert (Hurl : Views.service_a_url environ' = Views.service_a_url environ)
    by (unfold Views.service_a_url, Views.service_a_host, Py.environ_get;
        now rewrite He).
  run_cases (run_spec environ upstream loads rel request s);
    pose proof U as U'; rewrite Hu, <- Hurl in U'; symmetry; rewrite <- Hurl;
    try (rewrite (Hl r U) in L).
  - exact (run_failed environ' upstream' loads' rel request k d s U').
  - exact (run_escaped environ' upstream' loads' rel request k d s U').
  - exact (run_error_status environ' upstream' loads' rel request r s U' E).
  - exact (run_decoded environ' upstream' loads' rel request r v s U' E L).
  - exact (run_undecodable_caught environ' upstream' loads' rel request r d s U' E L V).
  - exact (run_undecodable_raised environ' upstream' loads' rel request r d s U' E L V).
  - exact (run_aborted environ' upstream' loads' rel request r k d s U' E L).
Qed.

(** ** The further properties at concrete inputs *)

(** A read timeout, a 404 and a 500, as they are logged. *)
Lemma home_view_log_text_witness :
  log_records
    (Views.home_view Sample.unset Sample.timed_out Sample.loads Requests.Since_2_27
       Sample.request Sample.idle).2
    = ([] ++ [error_record
                ("Error connecting to Service A: " +:+
                 "HTTPConnectionPool(host='service-a', port=8000): Read timed out. (read timeout=5)")])%list /\
  log_records
    (Views.home_view Sample.unset Sample.not_found Sample.loads Requests.Since_2_27
       Sample.request Sample.idle).2
    = [error_record
         "Error connecting to Service A: 404 Client Error: Not Found for url: http://service-a:8000/api/data/"] /\
  log_records
    (Views.home_view Sample.unset Sample.server_error Sample.loads Requests.Since_2_27
       Sample.request Sample.idle).2
    = [error_record
         "Error connecting to Service A: 500 Server Error: Internal Server Error for url: http://service-a:8000/api/data/"].
Proof.
  split; [| split].
  - apply (proj1 (home_view_log_text Sample.unset Sample.timed_out Sample.loads
                    Requests.Since_2_27 Sample.request Sample.idle) Requests.FReadTimeout).
    reflexivity.
  - eapply (proj1 (proj2 (home_view_log_text Sample.unset Sample.not_found Sample.loads
                            Requests.Since_2_27 Sample.request Sample.idle)) _ eq_refl).
    simpl. lia.
  - eapply (proj2 (proj2 (home_view_log_text Sample.unset Sample.server_error Sample.loads
                            Requests.Since_2_27 Sample.request Sample.idle)) _ eq_refl).
    simpl. lia.
Defined.

(** The page for the items a and b. *)
Lemma home_view_data_provenance_witness :
  dom (Django.context (page Sample.items_ab)) = {[ "data" ]} /\
  exists v,
    Django.context (page Sample.items_ab) !! "data" = Some v /\
    (v = Py.VDict [("items", Py.VList [])] \/
     exists r, Sample.ok_items (Views.service_a_url Sample.unset) 5 = Requests.Responded r /\
               ~ Http.is_error (Requests.status_code r) /\
               Sample.loads (Requests.text r) = Requests.Decoded v).
Proof.
  apply (home_view_data_provenance Sample.unset Sample.ok_items Sample.loads
           Requests.Since_2_27 Sample.request Sample.idle
           (sent (Views.service_a_url Sample.unset) Sample.idle)).
  vm_compute. reflexivity.
Defined.

(** After a read timeout the page is the fallback. *)
Lemma home_view_fallback_iff_witness :
  page Views.fallback = page (Py.VDict [("items", Py.VList [])]) <->
  (~ Http.fetched_and_parsed Sample.loads
       (Sample.timed_out (Views.service_a_url Sample.unset) 5) \/
   exists r, Sample.timed_out (Views.service_a_url Sample.unset) 5 = Requests.Responded r /\
             Sample.loads (Requests.text r)
               = Requests.Decoded (Py.VDict [("items", Py.VList [])])).
Proof.
  apply (home_view_fallback_iff Sample.unset Sample.timed_out Sample.loads
           Requests.Since_2_27 Sample.request Sample.idle
           (logged
              (complaint
                 "HTTPConnectionPool(host='service-a', port=8000): Read timed out. (read timeout=5)")
              (sent (Views.service_a_url Sample.unset) Sample.idle))).
  vm_compute. reflexivity.
Defined.


(** Another variable set, and an upstream that refuses every other
    URL: the invocation is the same. *)
Lemma home_view_local_witness :
  Views.home_view Sample.unset Sample.ok_items Sample.loads Requests.Since_2_27
      Sample.request Sample.idle
    = Views.home_view Sample.unset_with_path
        (fun url timeout =>
           if bool_decide (url = "http://service-a:8000/api/data/")
           then Sample.ok_items url timeout else Sample.refused url timeout)
        Sample.loads Requests.Since_2_27 Sample.request Sample.idle.
Proof.
  apply home_view_local.
  - reflexivity.
  - reflexivity.
  - intros r _. reflexivity.
Defined.
